(** * CloudWatch dashboard body: grid layout and the body builder

    A shallow embedding of [getDashboardBody]
    (nodejs/awsx/cloudwatch/dashboard.ts) together with the flow widgets it
    lays out.  JavaScript numbers that hold grid units are integers, [Z];
    arrays are lists; an optional field of [DashboardArgs] is an [option];
    a [pulumi.Input] or [pulumi.Output] stands for the value it resolves to;
    [throw new Error(msg)] is the [Thrown] outcome of a small error monad
    that also threads the trace of calls made into the widget classes. *)

From Stdlib Require Import ZArith List String Bool Lia Permutation.
Import ListNotations.
Local Open Scope Z_scope.
Set Warnings "-register-all".

(** ** Widgets *)

(** [aws.Region] is a string; the [properties] object of a leaf is opaque to
    the layout and is carried as its JSON text. *)
Definition Region := string.
Definition Properties := string.

(** Modelled from the spec: the [Widget] interface of widget.ts and the flow
    widgets of widgets_flow.ts, which dashboard.ts imports.  A widget is a
    leaf with an intrinsic size, a type tag and a properties producer, or a
    row or a column owning an ordered sequence of children (spec, section 3). *)
Inductive Widget : Type :=
| LeafWidget (leafWidth leafHeight : Z) (type : string)
             (properties : Region -> Properties)
| RowWidget (widgets : list Widget)
| ColumnWidget (widgets : list Widget).

(** Modelled from the spec: the serialized leaf record of widgets_json.ts,
    [{ x, y, width, height, type, properties }] (spec, section 3). *)
Record WidgetJson : Type := mkWidgetJson {
  json_x : Z;
  json_y : Z;
  json_width : Z;
  json_height : Z;
  json_type : string;
  json_properties : Properties
}.

(** The structural induction principle that reaches the children of rows and
    columns. *)
Section WidgetInduction.
Variable P : Widget -> Prop.
Hypothesis Hleaf : forall w h ty props, P (LeafWidget w h ty props).
Hypothesis Hrow : forall cs, Forall P cs -> P (RowWidget cs).
Hypothesis Hcolumn : forall cs, Forall P cs -> P (ColumnWidget cs).

Fixpoint Widget_nested_ind (w : Widget) : P w :=
  match w with
  | LeafWidget wd ht ty props => Hleaf wd ht ty props
  | RowWidget cs =>
      Hrow cs ((fix all (l : list Widget) : Forall P l :=
                  match l with
                  | [] => Forall_nil P
                  | c :: l' => Forall_cons c (Widget_nested_ind c) (all l')
                  end) cs)
  | ColumnWidget cs =>
      Hcolumn cs ((fix all (l : list Widget) : Forall P l :=
                     match l with
                     | [] => Forall_nil P
                     | c :: l' => Forall_cons c (Widget_nested_ind c) (all l')
                     end) cs)
  end.
End WidgetInduction.

(** ** The layout engine *)

(** The dashboard grid is 24 columns wide. *)
Definition GRID_WIDTH : Z := 24.

(** Modelled from the spec: the running state of a row's packing loop
    (spec, section 4.2): the column cursor, the vertical cursor, the height
    of the current line, and the largest column cursor reached so far. *)
Record RowCursor : Type := mkRowCursor {
  cursorX : Z;
  cursorY : Z;
  lineHeight : Z;
  maxX : Z
}.

Definition rowStart : RowCursor := mkRowCursor 0 0 0 0.

(** Modelled from the spec: "if cursorX + child.width > 24, wrap: reset
    cursorX = 0, advance cursorY += lineHeight, reset lineHeight = 0". *)
Definition wrapIfNeeded (s : RowCursor) (childWidth : Z) : RowCursor :=
  if GRID_WIDTH <? cursorX s + childWidth
  then mkRowCursor 0 (cursorY s + lineHeight s) 0 (maxX s)
  else s.

(** Modelled from the spec: "advance cursorX += child.width; update
    lineHeight = max(lineHeight, child.height)"; the largest cursor reached
    is recorded for the row's derived width. *)
Definition advance (s : RowCursor) (childWidth childHeight : Z) : RowCursor :=
  mkRowCursor (cursorX s + childWidth)
              (cursorY s)
              (Z.max (lineHeight s) childHeight)
              (Z.max (maxX s) (cursorX s + childWidth)).

Definition packChild (s : RowCursor) (d : Z * Z) : RowCursor :=
  advance (wrapIfNeeded s (fst d)) (fst d) (snd d).

(** Modelled from the spec: the [width()] and [height()] of a widget,
    computed together.  A leaf has its intrinsic size.  A row's height is
    [cursorY + lineHeight] after its last child and its width the largest
    [cursorX] reached, capped at 24 (section 4.2).  A column's height is the
    sum of its children's heights and its width their maximum (section 4.3). *)
Fixpoint dimensions (w : Widget) : Z * Z :=
  match w with
  | LeafWidget wd ht _ _ => (wd, ht)
  | RowWidget cs =>
      let s := fold_left packChild (map dimensions cs) rowStart in
      (Z.min GRID_WIDTH (maxX s), cursorY s + lineHeight s)
  | ColumnWidget cs =>
      (fold_left Z.max (map fst (map dimensions cs)) 0,
       fold_left Z.add (map snd (map dimensions cs)) 0)
  end.

Definition width (w : Widget) : Z := fst (dimensions w).
Definition height (w : Widget) : Z := snd (dimensions w).

(** Modelled from the spec: [addWidgetJson(widgetJsons, xOffset, yOffset,
    region)], the [emit] operation of section 4.1.  The array it pushes to
    is passed in and handed back.  A leaf appends one record at the offset;
    a row packs its children left to right with wrapping; a column stacks
    them. *)
Fixpoint addWidgetJson (w : Widget) (widgetJsons : list WidgetJson)
    (xOffset yOffset : Z) (region : Region) {struct w} : list WidgetJson :=
  match w with
  | LeafWidget wd ht ty props =>
      widgetJsons ++ [mkWidgetJson xOffset yOffset wd ht ty (props region)]
  | RowWidget cs =>
      (fix place (l : list Widget) (s : RowCursor) (out : list WidgetJson)
           {struct l} : list WidgetJson :=
         match l with
         | [] => out
         | c :: rest =>
             let s' := wrapIfNeeded s (width c) in
             place rest (advance s' (width c) (height c))
                   (addWidgetJson c out (xOffset + cursorX s')
                                  (yOffset + cursorY s') region)
         end) cs rowStart widgetJsons
  | ColumnWidget cs =>
      (fix place (l : list Widget) (cursor : Z) (out : list WidgetJson)
           {struct l} : list WidgetJson :=
         match l with
         | [] => out
         | c :: rest =>
             place rest (cursor + height c)
                   (addWidgetJson c out xOffset (yOffset + cursor) region)
         end) cs 0 widgetJsons
  end.

(** The two loops of [addWidgetJson], named, from an arbitrary cursor. *)
Fixpoint placeRow (l : list Widget) (s : RowCursor) (out : list WidgetJson)
    (xOffset yOffset : Z) (region : Region) : list WidgetJson :=
  match l with
  | [] => out
  | c :: rest =>
      let s' := wrapIfNeeded s (width c) in
      placeRow rest (advance s' (width c) (height c))
               (addWidgetJson c out (xOffset + cursorX s')
                              (yOffset + cursorY s') region)
               xOffset yOffset region
  end.

Fixpoint placeColumn (l : list Widget) (cursor : Z) (out : list WidgetJson)
    (xOffset yOffset : Z) (region : Region) : list WidgetJson :=
  match l with
  | [] => out
  | c :: rest =>
      placeColumn rest (cursor + height c)
                  (addWidgetJson c out xOffset (yOffset + cursor) region)
                  xOffset yOffset region
  end.

(** The cursor of a row after packing a sequence of children. *)
Definition rowStep (s : RowCursor) (c : Widget) : RowCursor :=
  advance (wrapIfNeeded s (width c)) (width c) (height c).

Definition rowRunFrom (s : RowCursor) (cs : list Widget) : RowCursor :=
  fold_left rowStep cs s.

Definition rowRun (cs : list Widget) : RowCursor := rowRunFrom rowStart cs.

(** The cursors reached after each child, in order. *)
Fixpoint rowStatesFrom (s : RowCursor) (cs : list Widget) : list RowCursor :=
  match cs with
  | [] => []
  | c :: rest => rowStep s c :: rowStatesFrom (rowStep s c) rest
  end.

Definition rowStates (cs : list Widget) : list RowCursor :=
  rowStatesFrom rowStart cs.

(** Every child of a sequence paired with the children before it. *)
Fixpoint splitsFrom (before : list Widget) (cs : list Widget)
    : list (list Widget * Widget) :=
  match cs with
  | [] => []
  | c :: rest => (before, c) :: splitsFrom (before ++ [c]) rest
  end.

Definition splits (cs : list Widget) : list (list Widget * Widget) :=
  splitsFrom [] cs.

(** The records a widget contributes when laid out at an offset. *)
Definition records (w : Widget) (xOffset yOffset : Z) (region : Region)
    : list WidgetJson :=
  addWidgetJson w [] xOffset yOffset region.

Definition sumHeights (cs : list Widget) : Z :=
  fold_right Z.add 0 (map height cs).

Definition maxWidths (cs : list Widget) : Z :=
  fold_right Z.max 0 (map width cs).

(** The leaves of a tree in reading order, and their number. *)
Fixpoint leaves (w : Widget) : list Widget :=
  match w with
  | LeafWidget _ _ _ _ => [w]
  | RowWidget cs => flat_map leaves cs
  | ColumnWidget cs => flat_map leaves cs
  end.

(** What a record keeps of the leaf it came from, whatever its position. *)
Definition leafContent (region : Region) (w : Widget)
    : Z * Z * string * Properties :=
  match w with
  | LeafWidget wd ht ty props => (wd, ht, ty, props region)
  | _ => (0, 0, EmptyString, EmptyString)
  end.

Definition recordContent (j : WidgetJson) : Z * Z * string * Properties :=
  (json_width j, json_height j, json_type j, json_properties j).

Definition position (j : WidgetJson) : Z * Z := (json_x j, json_y j).

(** ** Vocabulary of the statements about the layout *)

(** What the row loop, started from [s0], emits for a child that comes after
    the children [fst pc]. *)
Definition rowPlacement (s0 : RowCursor) (x y : Z) (region : Region)
    (pc : list Widget * Widget) : list WidgetJson :=
  let s' := wrapIfNeeded (rowRunFrom s0 (fst pc)) (width (snd pc)) in
  records (snd pc) (x + cursorX s') (y + cursorY s') region.

(** What the column loop emits for a child that comes after the children
    [fst pc]. *)
Definition columnPlacement (x y : Z) (region : Region)
    (pc : list Widget * Widget) : list WidgetJson :=
  records (snd pc) x (y + sumHeights (fst pc)) region.

(** The offset, relative to the row, at which a child is placed when the
    children [pre] come before it. *)
Definition childOffsetInRow (pre : list Widget) (c : Widget) : Z * Z :=
  let s' := wrapIfNeeded (rowRun pre) (width c) in
  (cursorX s', cursorY s').

(** The records of a widget carry the content of its leaves, in order,
    wherever the widget is put. *)
Definition keepsLeaves (region : Region) (c : Widget) : Prop :=
  forall x y,
    map recordContent (records c x y region)
    = map (leafContent region) (leaves c).

(** ** The body builder *)

(** The result of a call: a value, or the message of a thrown [Error]. *)
Inductive Outcome (A : Type) : Type :=
| Returned (value : A)
| Thrown (message : string).
Arguments Returned {A} value.
Arguments Thrown {A} message.

Definition BoundsError : string :=
  "Must supply between 0 and 100 widgets."%string.

Definition HeterogeneousListError : string :=
  "All widgets must either be RowWidgets or none of them must be."%string.

(** The calls [getDashboardBody] makes into the widget classes, in the order
    it makes them: the two constructors and the layout itself. *)
Inductive Event : Type :=
| NewRowWidget (widgets : list Widget)
| NewColumnWidget (rows : list Widget)
| AddWidgetJson (column : Widget) (widgetJsons : list WidgetJson)
                (xOffset yOffset : Z) (region : Region).

Definition Trace := list Event.

(** A computation runs from the trace so far to an outcome and the trace it
    leaves; a throw keeps what was done before it. *)
Definition M (A : Type) : Type := Trace -> Outcome A * Trace.

Definition ret {A : Type} (a : A) : M A := fun t => (Returned a, t).

Definition throw {A : Type} (message : string) : M A :=
  fun t => (Thrown message, t).

Definition bind {A B : Type} (m : M A) (k : A -> M B) : M B :=
  fun t =>
    match m t with
    | (Returned a, t') => k a t'
    | (Thrown e, t') => (Thrown e, t')
    end.

Definition call (e : Event) : M unit := fun t => (Returned tt, t ++ [e]).

Declare Scope builder_scope.
Delimit Scope builder_scope with builder.
Notation "x <- m ;; k" := (bind m (fun x => k))
  (at level 100, m at next level, right associativity) : builder_scope.
Notation "m ;; k" := (bind m (fun _ => k))
  (at level 100, right associativity) : builder_scope.
Local Open Scope builder_scope.

Inductive PeriodOverride : Type := auto_ | inherit.

Record DashboardArgs : Type := mkDashboardArgs {
  args_name : option string;
  args_region : option Region;
  args_end : option string;
  args_start : option string;
  args_periodOverride : option PeriodOverride;
  args_widgets : option (list Widget)
}.

Record DashboardBody : Type := mkDashboardBody {
  body_start : option string;
  body_end : option string;
  body_periodOverride : option PeriodOverride;
  body_widgets : list WidgetJson
}.

(** [v instanceof RowWidget]; [widgets[0]] of an empty array is
    [undefined], which is an instance of nothing. *)
Definition instanceofRowWidget (v : option Widget) : bool :=
  match v with
  | Some (RowWidget _) => true
  | _ => false
  end.

(** The loop [for (let i = 1; i < widgets.length; i++)], run over the
    elements after the first. *)
Fixpoint checkWidgets (firstWidgetIsRow : bool) (rest : list Widget)
    : M unit :=
  match rest with
  | [] => ret tt
  | w :: rest' =>
      let currentWidgetIsRow := instanceofRowWidget (Some w) in
      if negb (Bool.eqb firstWidgetIsRow currentWidgetIsRow)
      then throw HeterogeneousListError
      else checkWidgets firstWidgetIsRow rest'
  end.

Definition newRowWidget (widgets : list Widget) : M Widget :=
  call (NewRowWidget widgets) ;; ret (RowWidget widgets).

Definition newColumnWidget (rows : list Widget) : M Widget :=
  call (NewColumnWidget rows) ;; ret (ColumnWidget rows).

(** The call [column.addWidgetJson(widgetJsons, 0, 0, region)].  The layout
    is the one of the spec, which returns for every tree (section 4.4:
    "layout itself cannot fail"); a leaf whose properties producer throws
    (section 7) is not represented. *)
Definition callAddWidgetJson (column : Widget) (widgetJsons : list WidgetJson)
    (xOffset yOffset : Z) (region : Region) : M (list WidgetJson) :=
  call (AddWidgetJson column widgetJsons xOffset yOffset region) ;;
  ret (addWidgetJson column widgetJsons xOffset yOffset region).

(** [args.widgets || []]: an array, even an empty one, is truthy. *)
Definition widgetsOrEmpty (args : DashboardArgs) : list Widget :=
  match args_widgets args with
  | Some ws => ws
  | None => []
  end.

Definition getDashboardBody (args : DashboardArgs) (region : Region)
    : M DashboardBody :=
  let widgets := widgetsOrEmpty args in
  let len := Z.of_nat (List.length widgets) in
  if (len <? 0) || (100 <? len) then throw BoundsError else
  let firstWidgetIsRow := instanceofRowWidget (nth_error widgets 0) in
  checkWidgets firstWidgetIsRow (skipn 1 widgets) ;;
  rows <- (if firstWidgetIsRow then ret widgets
           else (row <- newRowWidget widgets ;; ret [row])) ;;
  column <- newColumnWidget rows ;;
  widgetJsons <- callAddWidgetJson column [] 0 0 region ;;
  ret (mkDashboardBody (args_start args) (args_end args)
                       (args_periodOverride args) widgetJsons).

(** The outcome of a call made from a given trace, and the calls it added
    when made from the empty trace. *)
Definition outcome (args : DashboardArgs) (region : Region) (t : Trace)
    : Outcome DashboardBody :=
  fst (getDashboardBody args region t).

Definition traceAfter (args : DashboardArgs) (region : Region) (t : Trace)
    : Trace :=
  snd (getDashboardBody args region t).

(** Arguments that carry only a widget list. *)
Definition argsOf (ws : list Widget) : DashboardArgs :=
  mkDashboardArgs None None None None None (Some ws).

(** The row sequence the builder lays out for a widget list. *)
Definition rowsOf (ws : list Widget) : list Widget :=
  match ws with
  | RowWidget _ :: _ => ws
  | _ => [RowWidget ws]
  end.

Definition isRow (w : Widget) : bool := instanceofRowWidget (Some w).

(** Some sample widgets. *)
Definition leaf (w h : Z) (ty : string) : Widget :=
  LeafWidget w h ty (fun region => region).

Definition usEast1 : Region := "us-east-1"%string.

(** ** Vocabulary of the statements about the builder *)

(** The classification of the first element, [widgets[0] instanceof
    RowWidget]. *)
Definition firstIsRow (ws : list Widget) : bool :=
  instanceofRowWidget (nth_error ws 0).

(** Every element after the first is classified like the first. *)
Definition homogeneousb (ws : list Widget) : bool :=
  forallb (fun w => Bool.eqb (firstIsRow ws) (isRow w)) (skipn 1 ws).

(** The calls a successful build makes, in order. *)
Definition layoutCalls (ws : list Widget) (region : Region) : Trace :=
  (if firstIsRow ws then [] else [NewRowWidget ws])
  ++ [NewColumnWidget (rowsOf ws);
      AddWidgetJson (ColumnWidget (rowsOf ws)) [] 0 0 region].

Definition bodyOf (args : DashboardArgs) (region : Region) : DashboardBody :=
  mkDashboardBody (args_start args) (args_end args) (args_periodOverride args)
    (addWidgetJson (ColumnWidget (rowsOf (widgetsOrEmpty args))) [] 0 0 region).

(** The message of a thrown error, if the call threw. *)
Definition errorOf {A : Type} (o : Outcome A) : option string :=
  match o with
  | Thrown message => Some message
  | Returned _ => None
  end.

(** The same arguments with another [widgets] field. *)
Definition withWidgets (args : DashboardArgs) (ws : option (list Widget))
    : DashboardArgs :=
  mkDashboardArgs (args_name args) (args_region args) (args_end args)
    (args_start args) (args_periodOverride args) ws.

(** ** The builder on a store of arrays *)

(** In the program [widgetJsons] is a reference to an array: [addWidgetJson]
    mutates the array and the returned object keeps the reference.  Here the
    arrays live in a store, addressed in the order of their allocation, next
    to the trace of calls; a store may hold any arrays before a call. *)
Definition Ref : Type := nat.
Definition Store : Type := list (list WidgetJson).

Record World : Type := mkWorld {
  arrays : Store;
  calls : Trace
}.

Definition W (A : Type) : Type := World -> Outcome A * World.

Definition retW {A : Type} (a : A) : W A := fun w => (Returned a, w).

Definition throwW {A : Type} (message : string) : W A :=
  fun w => (Thrown message, w).

Definition bindW {A B : Type} (m : W A) (k : A -> W B) : W B :=
  fun w =>
    match m w with
    | (Returned a, w') => k a w'
    | (Thrown e, w') => (Thrown e, w')
    end.

(** A computation that only adds to the trace leaves the store alone. *)
Definition liftM {A : Type} (m : M A) : W A :=
  fun w => let (o, t') := m (calls w) in (o, mkWorld (arrays w) t').

Declare Scope world_scope.
Delimit Scope world_scope with world.
Notation "x <- m ;; k" := (bindW m (fun x => k))
  (at level 100, m at next level, right associativity) : world_scope.
Notation "m ;; k" := (bindW m (fun _ => k))
  (at level 100, right associativity) : world_scope.

Definition readArray (h : Store) (r : Ref) : list WidgetJson := nth r h [].

Fixpoint writeArray (h : Store) (r : Ref) (a : list WidgetJson) : Store :=
  match h, r with
  | [], _ => []
  | _ :: h', O => a :: h'
  | b :: h', S r' => b :: writeArray h' r' a
  end.

(** [[]]: a new, empty array at the next free address. *)
Definition newArray : W Ref :=
  fun w => (Returned (List.length (arrays w)),
            mkWorld (arrays w ++ [[]]) (calls w)).

(** [column.addWidgetJson(widgetJsons, xOffset, yOffset, region)] on a
    reference: the call is logged, and the array the reference points to
    becomes what the layout makes of it. *)
Definition addWidgetJsonAt (column : Widget) (widgetJsons : Ref)
    (xOffset yOffset : Z) (region : Region) : W unit :=
  fun w =>
    let before := readArray (arrays w) widgetJsons in
    (Returned tt,
     mkWorld (writeArray (arrays w) widgetJsons
                (addWidgetJson column before xOffset yOffset region))
             (calls w ++ [AddWidgetJson column before xOffset yOffset region])).

(** The returned object: its [widgets] is the reference to the array. *)
Record DashboardBodyRef : Type := mkDashboardBodyRef {
  ref_start : option string;
  ref_end : option string;
  ref_periodOverride : option PeriodOverride;
  ref_widgets : Ref
}.

Definition getDashboardBodyIn (args : DashboardArgs) (region : Region)
    : W DashboardBodyRef :=
  (let widgets := widgetsOrEmpty args in
   let len := Z.of_nat (List.length widgets) in
   if (len <? 0) || (100 <? len) then throwW BoundsError else
   let firstWidgetIsRow := instanceofRowWidget (nth_error widgets 0) in
   liftM (checkWidgets firstWidgetIsRow (skipn 1 widgets)) ;;
   rows <- (if firstWidgetIsRow then retW widgets
            else (row <- liftM (newRowWidget widgets) ;; retW [row])) ;;
   column <- liftM (newColumnWidget rows) ;;
   widgetJsons <- newArray ;;
   addWidgetJsonAt column widgetJsons 0 0 region ;;
   retW (mkDashboardBodyRef (args_start args) (args_end args)
                            (args_periodOverride args) widgetJsons))%world.

(** The document an object stands for in a store: what serializing it there
    would read. *)
Definition resolve (h : Store) (b : DashboardBodyRef) : DashboardBody :=
  mkDashboardBody (ref_start b) (ref_end b) (ref_periodOverride b)
                  (readArray h (ref_widgets b)).

Definition mapOutcome {A B : Type} (f : A -> B) (o : Outcome A) : Outcome B :=
  match o with
  | Returned a => Returned (f a)
  | Thrown message => Thrown message
  end.

Definition documentIn (h : Store) (o : Outcome DashboardBodyRef)
    : Outcome DashboardBody :=
  mapOutcome (resolve h) o.

(** The document of a finished call, read in the store the call left. *)
Definition document (r : Outcome DashboardBodyRef * World)
    : Outcome DashboardBody :=
  documentIn (arrays (snd r)) (fst r).

(** ** CodeBuild metrics *)

(** The [metrics] namespace of the CodeBuild module.  A JavaScript object is
    its table of own properties; a property may be present and hold
    [undefined]. *)
Module metrics.

Inductive Value : Type :=
| Undefined
| Str (s : string)
| Num (n : Z)
| Bool (b : bool)
| Ref (properties : string -> option Value).

Definition Object : Type := string -> option Value.

(** [{}] *)
Definition emptyObject : Object := fun _ => None.

(** [o.k]: [undefined] when [o] has no such property. *)
Definition get (o : Object) (k : string) : Value :=
  match o k with
  | Some v => v
  | None => Undefined
  end.

(** [o.k = v], and a [k: v] entry of an object literal. *)
Definition set (o : Object) (k : string) (v : Value) : Object :=
  fun k' => if String.eqb k k' then Some v else o k'.

(** [{ ...target, ...source }]: every own property of [source] is copied
    over [target]; spreading [undefined] copies nothing. *)
Definition spread (target : Object) (source : option Object) : Object :=
  match source with
  | None => target
  | Some src => fun k => match src k with
                         | Some v => Some v
                         | None => target k
                         end
  end.

(** [v.k] for a value that is not [undefined]: a property of an object,
    [undefined] on a primitive. *)
Definition member (v : Value) (k : string) : Value :=
  match v with
  | Ref o => get o k
  | _ => Undefined
  end.

(** [v !== undefined] *)
Definition isDefined (v : Value) : bool :=
  match v with
  | Undefined => false
  | _ => true
  end.

(** What a caller who passes [change] finds under [k] in the constructor
    arguments: the caller's own property, else the default of the function,
    else the namespace and the metric name. *)
Definition expectedArgument (name statistic unit : string)
    (change : option Object) (k : string) : option Value :=
  match spread emptyObject change k with
  | Some v => Some v
  | None =>
      if String.eqb k "statistic" then Some (Str statistic)
      else if String.eqb k "unit" then Some (Str unit)
      else if String.eqb k "namespace" then Some (Str "AWS/CodeBuild")
      else if String.eqb k "name" then Some (Str name)
      else None
  end.

(** The dimensions a caller who passes [change] gets: [ProjectName], the
    name of the project, when [change.project] is not [undefined], and no
    other. *)
Definition expectedDimension (change : option Object) (k : string)
    : option Value :=
  let project := get (spread emptyObject change) "project" in
  if isDefined project && String.eqb k "ProjectName"
  then Some (member project "name")
  else None.

Section Metric.
(** The class [cloudwatch.Metric] is not part of the module: its constructor
    and its [withDimensions] method are parameters. *)
Variable Metric : Type.
Variable newMetric : Object -> Metric.
Variable withDimensions : Metric -> Object -> Metric.

Definition metric (metricName : string) (change : option Object) : Metric :=
  let change := match change with
                | Some c => c
                | None => emptyObject
                end in
  let dimensions := emptyObject in
  let dimensions :=
    if isDefined (get change "project")
    then set dimensions "ProjectName" (member (get change "project") "name")
    else dimensions in
  withDimensions
    (newMetric (spread (set (set emptyObject "namespace" (Str "AWS/CodeBuild"))
                            "name" (Str metricName))
                       (Some change)))
    dimensions.

(** [{ statistic: s, unit: u, ...change }] *)
Definition withDefaults (statistic unit : string) (change : option Object)
    : Object :=
  spread (set (set emptyObject "statistic" (Str statistic)) "unit" (Str unit))
         change.

Definition buildDuration (change : option Object) : Metric :=
  metric "BuildDuration" (Some (withDefaults "Average" "Seconds" change)).

Definition builds (change : option Object) : Metric :=
  metric "Builds" (Some (withDefaults "Sum" "Count" change)).

Definition downloadSourceDuration (change : option Object) : Metric :=
  metric "DownloadSourceDuration"
         (Some (withDefaults "Average" "Seconds" change)).

Definition duration (change : option Object) : Metric :=
  metric "Duration" (Some (withDefaults "Average" "Seconds" change)).

Definition failedBuilds (change : option Object) : Metric :=
  metric "FailedBuilds" (Some (withDefaults "Sum" "Count" change)).

Definition finalizingDuration (change : option Object) : Metric :=
  metric "FinalizingDuration" (Some (withDefaults "Average" "Seconds" change)).

Definition installDuration (change : option Object) : Metric :=
  metric "InstallDuration" (Some (withDefaults "Average" "Seconds" change)).

Definition postBuildDuration (change : option Object) : Metric :=
  metric "PostBuildDuration" (Some (withDefaults "Average" "Seconds" change)).

Definition preBuildDuration (change : option Object) : Metric :=
  metric "PreBuildDuration" (Some (withDefaults "Average" "Seconds" change)).

Definition provisioningDuration (change : option Object) : Metric :=
  metric "ProvisioningDuration"
         (Some (withDefaults "Average" "Seconds" change)).

Definition queuedDuration (change : option Object) : Metric :=
  metric "QueuedDuration" (Some (withDefaults "Average" "Seconds" change)).

Definition submittedDuration (change : option Object) : Metric :=
  metric "SubmittedDuration" (Some (withDefaults "Average" "Seconds" change)).

Definition succeededBuilds (change : option Object) : Metric :=
  metric "SucceededBuilds" (Some (withDefaults "Sum" "Count" change)).

Definition uploadArtifactsDuration (change : option Object) : Metric :=
  metric "UploadArtifactsDuration"
         (Some (withDefaults "Average" "Seconds" change)).

(** The exported functions, each with the name it asks for and the statistic
    and unit it defaults to. *)
Definition exported
    : list (string * string * string * (option Object -> Metric)) :=
  [("BuildDuration", "Average", "Seconds", buildDuration);
   ("Builds", "Sum", "Count", builds);
   ("DownloadSourceDuration", "Average", "Seconds", downloadSourceDuration);
   ("Duration", "Average", "Seconds", duration);
   ("FailedBuilds", "Sum", "Count", failedBuilds);
   ("FinalizingDuration", "Average", "Seconds", finalizingDuration);
   ("InstallDuration", "Average", "Seconds", installDuration);
   ("PostBuildDuration", "Average", "Seconds", postBuildDuration);
   ("PreBuildDuration", "Average", "Seconds", preBuildDuration);
   ("ProvisioningDuration", "Average", "Seconds", provisioningDuration);
   ("QueuedDuration", "Average", "Seconds", queuedDuration);
   ("SubmittedDuration", "Average", "Seconds", submittedDuration);
   ("SucceededBuilds", "Sum", "Count", succeededBuilds);
   ("UploadArtifactsDuration", "Average", "Seconds", uploadArtifactsDuration)
  ]%string.

(** What a function [f] of [change] hands to the [Metric] class. *)
Definition handsOver (name statistic unit : string)
    (f : option Object -> Metric) : Prop :=
  forall change,
  exists args dimensions,
    f change = withDimensions (newMetric args) dimensions
    /\ (forall k, args k = expectedArgument name statistic unit change k)
    /\ (forall k, dimensions k = expectedDimension change k).
End Metric.


End metrics.

(** * Properties of the layout engine *)

Section Layout.
Variables (xOffset yOffset : Z) (region : Region).

Lemma addWidgetJson_row cs out :
  addWidgetJson (RowWidget cs) out xOffset yOffset region
  = placeRow cs rowStart out xOffset yOffset region.
Proof.
  simpl. generalize rowStart as s. revert out.
  induction cs as [|c rest IH]; intros out s; simpl; [reflexivity|].
  apply IH.
Qed.

Lemma addWidgetJson_column cs out :
  addWidgetJson (ColumnWidget cs) out xOffset yOffset region
  = placeColumn cs 0 out xOffset yOffset region.
Proof.
  simpl. generalize 0 as cursor. revert out.
  induction cs as [|c rest IH]; intros out cursor; simpl; [reflexivity|].
  apply IH.
Qed.
End Layout.

(** Laying a widget out only appends to the array it is given. *)
Lemma addWidgetJson_appends w :
  forall out x y region,
    addWidgetJson w out x y region = out ++ records w x y region.
Proof.
  induction w as [wd ht ty props | cs IH | cs IH] using Widget_nested_ind;
    intros out x y region.
  - reflexivity.
  - unfold records. rewrite !addWidgetJson_row.
    generalize rowStart as s. revert out.
    induction IH as [|c rest Hc _ IHrest]; intros out s; simpl.
    + now rewrite app_nil_r.
    + rewrite IHrest. rewrite (IHrest (addWidgetJson c [] _ _ _)).
      rewrite (Hc out). rewrite (Hc []). simpl.
      now rewrite app_assoc.
  - unfold records. rewrite !addWidgetJson_column.
    generalize 0 as cursor. revert out.
    induction IH as [|c rest Hc _ IHrest]; intros out cursor; simpl.
    + now rewrite app_nil_r.
    + rewrite IHrest. rewrite (IHrest (addWidgetJson c [] _ _ _)).
      rewrite (Hc out). rewrite (Hc []). simpl.
      now rewrite app_assoc.
Qed.

Lemma rowRunFrom_snoc s cs c :
  rowRunFrom s (cs ++ [c]) = rowStep (rowRunFrom s cs) c.
Proof. unfold rowRunFrom. now rewrite fold_left_app. Qed.

Lemma placeRow_splits s0 x y region cs :
  forall before out,
    placeRow cs (rowRunFrom s0 before) out x y region
    = out ++ flat_map (rowPlacement s0 x y region) (splitsFrom before cs).
Proof.
  induction cs as [|c rest IH]; intros before out; simpl.
  - now rewrite app_nil_r.
  - fold (rowStep (rowRunFrom s0 before) c).
    rewrite <- rowRunFrom_snoc, IH, addWidgetJson_appends.
    unfold rowPlacement at 2. simpl. now rewrite app_assoc.
Qed.

Lemma sumHeights_snoc cs c : sumHeights (cs ++ [c]) = sumHeights cs + height c.
Proof.
  unfold sumHeights. induction cs as [|d cs IH]; simpl; [lia|].
  rewrite IH. lia.
Qed.

Lemma placeColumn_splits x y region cs :
  forall before out,
    placeColumn cs (sumHeights before) out x y region
    = out ++ flat_map (columnPlacement x y region) (splitsFrom before cs).
Proof.
  induction cs as [|c rest IH]; intros before out; simpl.
  - now rewrite app_nil_r.
  - rewrite <- sumHeights_snoc, IH, addWidgetJson_appends.
    unfold columnPlacement at 2. simpl. now rewrite app_assoc.
Qed.

(** [splits] lists exactly the decompositions of the sequence around one of
    its elements. *)
Lemma In_splitsFrom cs : forall before pre c,
  In (pre, c) (splitsFrom before cs)
  <-> exists mid post, cs = mid ++ c :: post /\ pre = before ++ mid.
Proof.
  induction cs as [|d rest IH]; intros before pre c; simpl.
  - split; [tauto|]. intros (mid & post & H & _). now destruct mid.
  - rewrite IH. split.
    + intros [H | (mid & post & -> & ->)].
      * inversion H; subst. exists [], rest. now rewrite app_nil_r.
      * exists (d :: mid), post. now rewrite <- app_assoc.
    + intros (mid & post & H & ->). destruct mid as [|m mid]; simpl in H.
      * inversion H; subst. left. now rewrite app_nil_r.
      * inversion H; subst. right. exists mid, post.
        now rewrite <- app_assoc.
Qed.

Lemma In_splits cs pre c :
  In (pre, c) (splits cs) <-> exists post, cs = pre ++ c :: post.
Proof.
  unfold splits. rewrite In_splitsFrom. simpl. split.
  - intros (mid & post & H & ->). now exists post.
  - intros (post & H). now exists pre, post.
Qed.

(** ** Derived sizes *)

Lemma fold_packChild cs : forall s,
  fold_left packChild (map dimensions cs) s = rowRunFrom s cs.
Proof.
  induction cs as [|c rest IH]; intros s; simpl; [reflexivity|].
  now rewrite IH.
Qed.

Lemma fold_left_add l : forall a,
  fold_left Z.add l a = a + fold_right Z.add 0 l.
Proof.
  induction l as [|z l IH]; intros a; simpl; [lia|].
  rewrite IH. lia.
Qed.

Lemma fold_left_max l : forall a,
  fold_left Z.max l a = Z.max a (fold_right Z.max a l).
Proof.
  induction l as [|z l IH]; intros a; simpl; [lia|].
  rewrite IH. clear IH.
  induction l as [|z' l IH]; simpl; lia.
Qed.

Lemma row_dimensions cs :
  width (RowWidget cs) = Z.min GRID_WIDTH (maxX (rowRun cs))
  /\ height (RowWidget cs) = cursorY (rowRun cs) + lineHeight (rowRun cs).
Proof.
  unfold width, height. simpl. now rewrite fold_packChild.
Qed.

Lemma column_dimensions cs :
  width (ColumnWidget cs) = maxWidths cs
  /\ height (ColumnWidget cs) = sumHeights cs.
Proof.
  unfold width, height, maxWidths, sumHeights. simpl.
  rewrite !map_map, fold_left_add, fold_left_max.
  split; [|now rewrite Z.add_0_l].
  change (fun x => fst (dimensions x)) with width.
  generalize (map width cs) as l.
  induction l as [|z l IH]; simpl; lia.
Qed.

(** The largest cursor recorded equals the largest cursor reached. *)
Lemma maxX_rowRunFrom cs : forall s,
  maxX (rowRunFrom s cs)
  = fold_right Z.max (maxX s) (map cursorX (rowStatesFrom s cs)).
Proof.
  induction cs as [|c rest IH]; intros s; [reflexivity|].
  change (rowRunFrom s (c :: rest)) with (rowRunFrom (rowStep s c) rest).
  rewrite IH.
  change (rowStatesFrom s (c :: rest))
    with (rowStep s c :: rowStatesFrom (rowStep s c) rest).
  cbn [map fold_right].
  generalize (map cursorX (rowStatesFrom (rowStep s c) rest)) as l. intros l.
  assert (Hm : maxX (rowStep s c) = Z.max (maxX s) (cursorX (rowStep s c))).
  { unfold rowStep, advance, wrapIfNeeded.
    destruct (GRID_WIDTH <? cursorX s + width c); reflexivity. }
  rewrite Hm. clear Hm. generalize (cursorX (rowStep s c)) as z. intros z.
  induction l as [|z' l IHl]; simpl; lia.
Qed.

Lemma rowStatesFrom_splits s0 cs : forall before,
  rowStatesFrom (rowRunFrom s0 before) cs
  = map (fun pc => rowRunFrom s0 (fst pc ++ [snd pc])) (splitsFrom before cs).
Proof.
  induction cs as [|c rest IH]; intros before; simpl; [reflexivity|].
  rewrite <- rowRunFrom_snoc, IH. reflexivity.
Qed.

(** ** Rows *)

(** C1. A row processes its children in order from [cursorX = cursorY =
    lineHeight = 0].  A child that comes after the children [pre] is wrapped
    exactly when [cursorX + width > 24] (the test [24 <? cursorX + width]):
    then it is placed at relative [(0, cursorY + lineHeight)] and leaves
    [cursorX = width], [lineHeight = max 0 height]; otherwise it is placed at
    [(cursorX, cursorY)] and leaves [cursorX + width] and
    [max lineHeight height].  The row emits each child at
    [(xOffset + cursorX, yOffset + cursorY)], in order.  Three children of
    width 10 are placed at x = 0, 10 and, wrapped, at x = 0 one line down;
    two children of width 12 at x = 0 and 12 on the same line. *)
Theorem row_wrap_rule :
  (cursorX (rowRun []) = 0 /\ cursorY (rowRun []) = 0
   /\ lineHeight (rowRun []) = 0)
  /\ (forall pre c,
         let s := rowRun pre in
         let s1 := rowRun (pre ++ [c]) in
         if 24 <? cursorX s + width c
         then childOffsetInRow pre c = (0, cursorY s + lineHeight s)
              /\ cursorX s1 = 0 + width c
              /\ cursorY s1 = cursorY s + lineHeight s
              /\ lineHeight s1 = Z.max 0 (height c)
         else childOffsetInRow pre c = (cursorX s, cursorY s)
              /\ cursorX s1 = cursorX s + width c
              /\ cursorY s1 = cursorY s
              /\ lineHeight s1 = Z.max (lineHeight s) (height c))
  /\ (forall cs out x y region,
         addWidgetJson (RowWidget cs) out x y region
         = out ++ flat_map
                    (fun pc =>
                       records (snd pc)
                         (x + fst (childOffsetInRow (fst pc) (snd pc)))
                         (y + snd (childOffsetInRow (fst pc) (snd pc)))
                         region)
                    (splits cs))
  /\ (forall h1 h2 h3 t1 t2 t3 p1 p2 p3 x y region,
         map position
             (records (RowWidget [LeafWidget 10 h1 t1 p1;
                                  LeafWidget 10 h2 t2 p2;
                                  LeafWidget 10 h3 t3 p3]) x y region)
         = [(x + 0, y + 0); (x + 10, y + 0);
            (x + 0, y + (0 + Z.max (Z.max 0 h1) h2))])
  /\ (forall h1 h2 t1 t2 p1 p2 x y region,
         map position
             (records (RowWidget [LeafWidget 12 h1 t1 p1;
                                  LeafWidget 12 h2 t2 p2]) x y region)
         = [(x + 0, y + 0); (x + 12, y + 0)]).
Proof.
  split; [repeat split|].
  split.
  { intros pre c s s1. unfold s1, s, childOffsetInRow, rowRun.
    rewrite rowRunFrom_snoc. unfold rowStep, advance, wrapIfNeeded.
    change GRID_WIDTH with 24.
    destruct (24 <? cursorX (rowRunFrom rowStart pre) + width c);
      repeat split. }
  split.
  { intros cs out x y region. rewrite addWidgetJson_row.
    exact (placeRow_splits rowStart x y region cs [] out). }
  split; intros; reflexivity.
Qed.

(** C6. After a row has processed all its children its height is
    [cursorY + lineHeight] of the final cursor, and its width is the largest
    [cursorX] reached after any child (0 for a row without children), capped
    at 24; the cursors reached are those after each prefix of the children. *)
Theorem row_derived_size :
  forall cs,
    height (RowWidget cs) = cursorY (rowRun cs) + lineHeight (rowRun cs)
    /\ width (RowWidget cs)
       = Z.min 24 (fold_right Z.max 0 (map cursorX (rowStates cs)))
    /\ rowStates cs
       = map (fun pc => rowRun (fst pc ++ [snd pc])) (splits cs).
Proof.
  intros cs. destruct (row_dimensions cs) as [Hw Hh].
  split; [exact Hh|]. split.
  - rewrite Hw. unfold rowRun, rowStates. now rewrite maxX_rowRunFrom.
  - exact (rowStatesFrom_splits rowStart cs []).
Qed.

(** A row holding one leaf places it at the row's own corner and is as high
    as the leaf, whether or not the leaf fits the grid. *)
Lemma single_leaf_row w h t p :
  (forall x y region,
      records (RowWidget [LeafWidget w h t p]) x y region
      = [mkWidgetJson (x + 0) (y + 0) w h t (p region)])
  /\ height (RowWidget [LeafWidget w h t p]) = Z.max 0 h.
Proof.
  unfold records, height. simpl. unfold packChild, wrapIfNeeded, width. simpl.
  destruct (GRID_WIDTH <? w); split; reflexivity.
Qed.

(** ** Columns *)

Lemma column_pair r1 r2 x y region :
  records (ColumnWidget [r1; r2]) x y region
  = records r1 x (y + 0) region ++ records r2 x (y + (0 + height r1)) region.
Proof.
  unfold records. rewrite addWidgetJson_column. cbn [placeColumn].
  now rewrite (addWidgetJson_appends r2).
Qed.

(** C5. A column emits each child at [(xOffset, yOffset + cursorY)] where
    [cursorY] is the sum of the heights of the children before it; its height
    is the sum of its children's heights and its width the maximum of their
    widths.  Two rows of heights 6 and 9 stacked in a column put the second
    row at y = 6 and give the column height 15. *)
Theorem column_stacking :
  (forall cs out x y region,
      addWidgetJson (ColumnWidget cs) out x y region
      = out ++ flat_map
                 (fun pc => records (snd pc) x (y + sumHeights (fst pc)) region)
                 (splits cs))
  /\ (forall cs, height (ColumnWidget cs) = sumHeights cs)
  /\ (forall cs, width (ColumnWidget cs) = maxWidths cs)
  /\ (forall r1 r2 x y region,
         records (ColumnWidget [r1; r2]) x y region
         = records r1 x (y + 0) region
           ++ records r2 x (y + (0 + height r1)) region
         /\ height (ColumnWidget [r1; r2]) = height r1 + height r2)
  /\ (forall w1 w2 t1 t2 p1 p2 region,
         let row1 := RowWidget [LeafWidget w1 6 t1 p1] in
         let row2 := RowWidget [LeafWidget w2 9 t2 p2] in
         height row1 = 6 /\ height row2 = 9
         /\ map position (records (ColumnWidget [row1; row2]) 0 0 region)
            = [(0, 0); (0, 6)]
         /\ height (ColumnWidget [row1; row2]) = 15).
Proof.
  split.
  { intros cs out x y region. rewrite addWidgetJson_column.
    exact (placeColumn_splits x y region cs [] out). }
  split; [intros cs; apply column_dimensions|].
  split; [intros cs; apply column_dimensions|].
  split.
  { intros r1 r2 x y region. split.
    - apply column_pair.
    - destruct (column_dimensions [r1; r2]) as [_ ->].
      unfold sumHeights. simpl. lia. }
  intros w1 w2 t1 t2 p1 p2 region row1 row2.
  destruct (single_leaf_row w1 6 t1 p1) as [R1 H1].
  destruct (single_leaf_row w2 9 t2 p2) as [R2 H2].
  fold row1 in R1, H1. fold row2 in R2, H2. simpl in H1, H2.
  destruct (column_dimensions [row1; row2]) as [_ Hc].
  repeat split; trivial.
  - rewrite column_pair, R1, R2, H1. reflexivity.
  - rewrite Hc. unfold sumHeights. simpl. rewrite H1, H2. reflexivity.
Qed.

(** ** Flattening *)

Section Flattening.
Variable region : Region.

(** Children laid out one after the other, wherever each is put, contribute
    their leaves in order. *)
Lemma children_keep_leaves (place : list Widget * Widget -> list WidgetJson)
    (cs : list Widget) :
  Forall (keepsLeaves region) cs ->
  (forall pc, exists x y, place pc = records (snd pc) x y region) ->
  forall before,
    map recordContent (flat_map place (splitsFrom before cs))
    = map (leafContent region) (flat_map leaves cs).
Proof.
  intros Hall Hplace.
  induction Hall as [|c rest Hc _ IH]; intros before; simpl; [reflexivity|].
  rewrite !map_app, IH. f_equal.
  destruct (Hplace (before, c)) as (x & y & ->). apply Hc.
Qed.

Lemma widget_keeps_leaves w : keepsLeaves region w.
Proof.
  induction w as [wd ht ty props | cs IH | cs IH] using Widget_nested_ind;
    intros x y.
  - reflexivity.
  - unfold records. rewrite addWidgetJson_row.
    replace (placeRow cs rowStart [] x y region)
      with (flat_map (rowPlacement rowStart x y region) (splits cs))
      by (symmetry; exact (placeRow_splits rowStart x y region cs [] [])).
    apply children_keep_leaves; [exact IH|].
    intros pc. unfold rowPlacement. eauto.
  - unfold records. rewrite addWidgetJson_column.
    replace (placeColumn cs 0 [] x y region)
      with (flat_map (columnPlacement x y region) (splits cs))
      by (symmetry; exact (placeColumn_splits x y region cs [] [])).
    apply children_keep_leaves; [exact IH|].
    intros pc. unfold columnPlacement. eauto.
Qed.
End Flattening.

(** C7. Flattening a widget tree leaves the records already in the output
    untouched and appends exactly one record per leaf of the tree, in the
    leaves' reading order, each carrying its leaf's size, type and
    properties.  A column of two rows of two leaves each yields four records
    in the order Row1-Leaf1, Row1-Leaf2, Row2-Leaf1, Row2-Leaf2. *)
Theorem flatten_one_record_per_leaf :
  (forall w out x y region,
      addWidgetJson w out x y region = out ++ records w x y region
      /\ List.length (addWidgetJson w out x y region)
         = (List.length out + List.length (leaves w))%nat
      /\ map recordContent (records w x y region)
         = map (leafContent region) (leaves w))
  /\ (forall w11 h11 p11 w12 h12 p12 w21 h21 p21 w22 h22 p22 x y region,
         let l11 := LeafWidget w11 h11 "Row1-Leaf1" p11 in
         let l12 := LeafWidget w12 h12 "Row1-Leaf2" p12 in
         let l21 := LeafWidget w21 h21 "Row2-Leaf1" p21 in
         let l22 := LeafWidget w22 h22 "Row2-Leaf2" p22 in
         let tree := ColumnWidget [RowWidget [l11; l12]; RowWidget [l21; l22]] in
         leaves tree = [l11; l12; l21; l22]
         /\ List.length (records tree x y region) = 4%nat
         /\ map json_type (records tree x y region)
            = ["Row1-Leaf1"; "Row1-Leaf2"; "Row2-Leaf1"; "Row2-Leaf2"]%string).
Proof.
  assert (Hlen : forall w x y region,
             List.length (records w x y region) = List.length (leaves w)).
  { intros w x y region.
    rewrite <- (length_map recordContent), widget_keeps_leaves.
    apply length_map. }
  split.
  - intros w out x y region. split; [apply addWidgetJson_appends|]. split.
    + now rewrite addWidgetJson_appends, length_app, Hlen.
    + apply widget_keeps_leaves.
  - intros w11 h11 p11 w12 h12 p12 w21 h21 p21 w22 h22 p22 x y region
           l11 l12 l21 l22 tree.
    split; [reflexivity|]. split; [now rewrite Hlen|].
    pose proof (widget_keeps_leaves region tree x y) as H.
    apply (f_equal (map (fun c => snd (fst c)))) in H.
    rewrite !map_map in H. exact H.
Qed.

(** * Properties of the body builder *)

Lemma checkWidgets_run b rest t :
  checkWidgets b rest t
  = (if forallb (fun w => Bool.eqb b (isRow w)) rest
     then Returned tt else Thrown HeterogeneousListError, t).
Proof.
  induction rest as [|w rest IH]; [reflexivity|].
  cbn [checkWidgets forallb]. fold (isRow w).
  destruct (Bool.eqb b (isRow w)); [exact IH|reflexivity].
Qed.

Lemma rowsOf_firstIsRow ws :
  rowsOf ws = if firstIsRow ws then ws else [RowWidget ws].
Proof. destruct ws as [|[| |] ws]; reflexivity. Qed.

Lemma length_not_negative (ws : list Widget) :
  (Z.of_nat (List.length ws) <? 0) = false.
Proof. apply Z.ltb_ge. lia. Qed.

(** The three ways a build can end. *)
Lemma getDashboardBody_cases args region t :
  getDashboardBody args region t
  = if 100 <? Z.of_nat (List.length (widgetsOrEmpty args))
    then (Thrown BoundsError, t)
    else if homogeneousb (widgetsOrEmpty args)
         then (Returned (bodyOf args region),
               t ++ layoutCalls (widgetsOrEmpty args) region)
         else (Thrown HeterogeneousListError, t).
Proof.
  unfold getDashboardBody, bodyOf, layoutCalls, homogeneousb.
  rewrite length_not_negative, rowsOf_firstIsRow.
  destruct (100 <? _); cbn [orb]; [reflexivity|].
  unfold bind at 1. rewrite checkWidgets_run. fold (firstIsRow (widgetsOrEmpty args)).
  destruct (forallb _ _); [|reflexivity].
  destruct (firstIsRow (widgetsOrEmpty args)); cbv [bind ret call newRowWidget
    newColumnWidget callAddWidgetJson]; now rewrite <- ?app_assoc.
Qed.

Lemma homogeneousb_false ws :
  homogeneousb ws = false
  <-> exists w, In w ws /\ isRow w <> firstIsRow ws.
Proof.
  unfold homogeneousb. split.
  - intros H. apply not_true_iff_false in H.
    rewrite forallb_forall in H.
    destruct (existsb (fun w => negb (Bool.eqb (firstIsRow ws) (isRow w)))
                      (skipn 1 ws)) eqn:E.
    + apply existsb_exists in E. destruct E as (w & Hin & Hw).
      exists w. split.
      * destruct ws; [contradiction|]. now right.
      * intros Heq. rewrite Heq, eqb_reflx in Hw. discriminate.
    + exfalso. apply H. intros w Hin.
      destruct (Bool.eqb (firstIsRow ws) (isRow w)) eqn:Ew; [reflexivity|].
      assert (existsb (fun w => negb (Bool.eqb (firstIsRow ws) (isRow w)))
                      (skipn 1 ws) = true) as C.
      { apply existsb_exists. exists w. now rewrite Ew. }
      congruence.
  - intros (w & Hin & Hw). apply not_true_iff_false. intros H.
    rewrite forallb_forall in H.
    destruct ws as [|f rest]; [contradiction|].
    destruct Hin as [<- | Hin]; [now apply Hw|].
    specialize (H w Hin). apply eqb_prop in H. now apply Hw.
Qed.

Lemma homogeneousb_true ws :
  Forall (fun w => isRow w = true) ws \/ Forall (fun w => isRow w = false) ws ->
  homogeneousb ws = true.
Proof.
  intros H. destruct (homogeneousb ws) eqn:E; [reflexivity|].
  apply homogeneousb_false in E. destruct E as (w & Hin & Hw).
  assert (Hf : In w ws -> exists f, nth_error ws 0 = Some f /\ In f ws).
  { destruct ws as [|f rest]; [contradiction|]. exists f. simpl. auto. }
  destruct (Hf Hin) as (f & Ef & Hinf). unfold firstIsRow in Hw.
  rewrite Ef in Hw. fold (isRow f) in Hw.
  destruct H as [H | H]; rewrite Forall_forall in H;
    rewrite (H w Hin), (H f Hinf) in Hw; now contradiction Hw.
Qed.

Lemma homogeneousb_repeat w n : homogeneousb (repeat w n) = true.
Proof.
  apply homogeneousb_true. destruct (isRow w) eqn:E; [left | right];
    apply Forall_forall; intros v Hv; apply repeat_spec in Hv; now subst.
Qed.

Lemma widgetsOrEmpty_argsOf ws : widgetsOrEmpty (argsOf ws) = ws.
Proof. reflexivity. Qed.

(** ** The count bound *)

(** C3. The builder throws the bounds error exactly when the widget count is
    outside [0, 100], and then it has made no call into the layout; a count
    is never below 0, so only the upper bound can fail.  No widgets give an
    empty [widgets] array; 100 widgets that are all rows or all not rows
    build, for one 100 copies of a widget; 101 throw. *)
Theorem count_bound_rule :
  (forall args region t,
      let n := Z.of_nat (List.length (widgetsOrEmpty args)) in
      (getDashboardBody args region t = (Thrown BoundsError, t)
       <-> (n < 0 \/ 100 < n))
      /\ (outcome args region t = Thrown BoundsError <-> (n < 0 \/ 100 < n))
      /\ 0 <= n)
  /\ (forall name rgn e s p region t,
         outcome (mkDashboardArgs name rgn e s p (Some [])) region t
         = Returned (mkDashboardBody s e p []))
  /\ (forall ws region t,
         List.length ws = 100%nat ->
         Forall (fun w => isRow w = true) ws
         \/ Forall (fun w => isRow w = false) ws ->
         outcome (argsOf ws) region t = Returned (bodyOf (argsOf ws) region))
  /\ (forall w region t,
         outcome (argsOf (repeat w 100)) region t
         = Returned (bodyOf (argsOf (repeat w 100)) region))
  /\ (forall w region t,
         getDashboardBody (argsOf (repeat w 101)) region t
         = (Thrown BoundsError, t)).
Proof.
  split.
  { intros args region t n. unfold outcome.
    rewrite getDashboardBody_cases. fold n.
    destruct (Z.ltb_spec 100 n) as [Hn | Hn].
    - repeat split; auto; lia.
    - assert (Hno : ~ (n < 0 \/ 100 < n)) by (unfold n in *; lia).
      repeat split; try tauto; try (unfold n; lia);
        destruct (homogeneousb _); simpl; intros H; discriminate H. }
  split; [reflexivity|].
  split.
  { intros ws region t Hlen Hhom. unfold outcome.
    rewrite getDashboardBody_cases, widgetsOrEmpty_argsOf, Hlen.
    now rewrite (homogeneousb_true _ Hhom). }
  split.
  - intros w region t. unfold outcome. rewrite getDashboardBody_cases.
    rewrite widgetsOrEmpty_argsOf, repeat_length, homogeneousb_repeat.
    reflexivity.
  - intros w region t. rewrite getDashboardBody_cases.
    rewrite widgetsOrEmpty_argsOf, repeat_length. reflexivity.
Qed.

(** C3, at 100 leaves and at 101 empty rows. *)
Lemma count_bound_rule_witness :
  outcome (argsOf (repeat (leaf 6 6 "metric") 100)) usEast1 []
  = Returned (bodyOf (argsOf (repeat (leaf 6 6 "metric") 100)) usEast1)
  /\ outcome (argsOf (repeat (RowWidget []) 101)) usEast1 []
     = Thrown BoundsError.
Proof.
  destruct count_bound_rule as (Hbound & _ & H100 & _).
  split.
  - apply H100; [reflexivity|]. right.
    apply Forall_forall. intros w Hw. apply repeat_spec in Hw. now subst.
  - apply (Hbound (argsOf (repeat (RowWidget []) 101)) usEast1 []).
    right. simpl. lia.
Defined.

(** ** The homogeneity rule *)

(** C2, as the code has it: for a widget list within the count bound (at
    most 100 widgets) the builder throws the heterogeneous-list error if and
    only if some element is classified (row or not) differently from the
    first; a list without any row builds, wrapped into one synthetic row. *)
Theorem heterogeneous_list_rule :
  forall args region t,
    (List.length (widgetsOrEmpty args) <= 100)%nat ->
    (outcome args region t = Thrown HeterogeneousListError
     <-> exists w, In w (widgetsOrEmpty args)
                   /\ isRow w <> instanceofRowWidget
                                   (nth_error (widgetsOrEmpty args) 0))
    /\ (Forall (fun w => isRow w = false) (widgetsOrEmpty args) ->
        outcome args region t
        = Returned (mkDashboardBody (args_start args) (args_end args)
                      (args_periodOverride args)
                      (records (ColumnWidget [RowWidget (widgetsOrEmpty args)])
                               0 0 region))).
Proof.
  intros args region t Hlen. unfold outcome.
  rewrite getDashboardBody_cases.
  destruct (Z.ltb_spec 100 (Z.of_nat (List.length (widgetsOrEmpty args))))
    as [Hn | _]; [lia|].
  split.
  - rewrite <- (homogeneousb_false (widgetsOrEmpty args)).
    destruct (homogeneousb _); simpl; split; intros H;
      reflexivity || discriminate H.
  - intros Hnone. rewrite homogeneousb_true by now right. simpl.
    unfold bodyOf, records. do 3 f_equal.
    destruct (widgetsOrEmpty args) as [|f rest]; [reflexivity|].
    inversion Hnone as [|? ? Hf _]; subst. now destruct f.
Qed.

(** C2, at the lists of the spec: [[RowWidget, LeafWidget]] throws the
    heterogeneous-list error, [[LeafWidget, LeafWidget]] builds as one
    synthetic row. *)
Lemma heterogeneous_list_rule_witness :
  outcome (argsOf [RowWidget []; leaf 6 6 "metric"]) usEast1 []
  = Thrown HeterogeneousListError
  /\ outcome (argsOf [leaf 6 6 "a"; leaf 6 6 "b"]) usEast1 []
     = Returned (mkDashboardBody None None None
                   (records (ColumnWidget
                               [RowWidget [leaf 6 6 "a"; leaf 6 6 "b"]])
                            0 0 usEast1)).
Proof.
  split.
  - apply (heterogeneous_list_rule
             (argsOf [RowWidget []; leaf 6 6 "metric"]) usEast1 []).
    + simpl. lia.
    + exists (leaf 6 6 "metric"). split; [simpl; auto | discriminate].
  - apply (heterogeneous_list_rule
             (argsOf [leaf 6 6 "a"; leaf 6 6 "b"]) usEast1 []).
    + simpl. lia.
    + repeat constructor.
Defined.

(** C2, as stated, fails beyond the count bound: in a list of a row followed
    by 100 leaves an element differs from the first, and a list of 101 leaves
    holds no row, yet both throw the bounds error. *)
Lemma heterogeneous_list_rule_beyond_bound :
  (exists w, In w (RowWidget [] :: repeat (leaf 6 6 "metric") 100)
             /\ isRow w <> instanceofRowWidget
                  (nth_error (RowWidget [] :: repeat (leaf 6 6 "metric") 100) 0))
  /\ outcome (argsOf (RowWidget [] :: repeat (leaf 6 6 "metric") 100))
             usEast1 []
     = Thrown BoundsError
  /\ outcome (argsOf (RowWidget [] :: repeat (leaf 6 6 "metric") 100))
             usEast1 []
     <> Thrown HeterogeneousListError
  /\ Forall (fun w => isRow w = false) (repeat (leaf 6 6 "metric") 101)
  /\ outcome (argsOf (repeat (leaf 6 6 "metric") 101)) usEast1 []
     = Thrown BoundsError.
Proof.
  split.
  { exists (leaf 6 6 "metric"). split; [right; left; reflexivity | discriminate]. }
  split; [reflexivity|].
  split; [discriminate|].
  split; [|reflexivity].
  apply Forall_forall. intros w Hw. apply repeat_spec in Hw. now subst.
Qed.

(** ** Normalization *)

(** C4. For a widget list within the count bound that is all rows or holds
    no row, the builder uses the list itself as the row sequence when its
    first element is a row and otherwise wraps the whole list into one
    synthetic row; it wraps the rows into one root column and lays that
    column out at offset (0, 0) into an empty array with the region it was
    given; the array is the [widgets] of the body. *)
Theorem builder_normalizes :
  forall args region t,
    (List.length (widgetsOrEmpty args) <= 100)%nat ->
    (Forall (fun w => isRow w = true) (widgetsOrEmpty args)
     \/ Forall (fun w => isRow w = false) (widgetsOrEmpty args)) ->
    let ws := widgetsOrEmpty args in
    let rows := match ws with
                | RowWidget _ :: _ => ws
                | _ => [RowWidget ws]
                end in
    let column := ColumnWidget rows in
    getDashboardBody args region t
    = (Returned (mkDashboardBody (args_start args) (args_end args)
                   (args_periodOverride args)
                   (addWidgetJson column [] 0 0 region)),
       t ++ match ws with
            | RowWidget _ :: _ => []
            | _ => [NewRowWidget ws]
            end
         ++ [NewColumnWidget rows; AddWidgetJson column [] 0 0 region]).
Proof.
  intros args region t Hlen Hhom ws rows column.
  rewrite getDashboardBody_cases.
  destruct (Z.ltb_spec 100 (Z.of_nat (List.length (widgetsOrEmpty args))))
    as [Hn | _]; [lia|].
  rewrite (homogeneousb_true _ Hhom).
  unfold bodyOf, layoutCalls, column, rows, firstIsRow, rowsOf, ws.
  destruct (widgetsOrEmpty args) as [|[| |] rest]; reflexivity.
Qed.

(** C4, at a list of two rows and at a list of two leaves. *)
Lemma builder_normalizes_witness :
  outcome (argsOf [RowWidget [leaf 6 6 "a"]; RowWidget [leaf 6 9 "b"]])
          usEast1 []
  = Returned (mkDashboardBody None None None
                (addWidgetJson
                   (ColumnWidget [RowWidget [leaf 6 6 "a"];
                                  RowWidget [leaf 6 9 "b"]])
                   [] 0 0 usEast1))
  /\ outcome (argsOf [leaf 6 6 "a"; leaf 6 9 "b"]) usEast1 []
     = Returned (mkDashboardBody None None None
                   (addWidgetJson
                      (ColumnWidget [RowWidget [leaf 6 6 "a"; leaf 6 9 "b"]])
                      [] 0 0 usEast1)).
Proof.
  split.
  - unfold outcome.
    rewrite (builder_normalizes
               (argsOf [RowWidget [leaf 6 6 "a"]; RowWidget [leaf 6 9 "b"]])
               usEast1 []).
    + reflexivity.
    + simpl. lia.
    + left. repeat constructor.
  - unfold outcome.
    rewrite (builder_normalizes (argsOf [leaf 6 6 "a"; leaf 6 9 "b"])
                                usEast1 []).
    + reflexivity.
    + simpl. lia.
    + right. repeat constructor.
Defined.

(** ** Errors come before layout *)

(** C8. When the builder throws, the error is one of the two validation
    errors, the builder has made no call into the widget classes (no row or
    column was constructed and no layout ran), and no body is returned.
    A build that returns a body has run the layout. *)
Theorem errors_before_layout :
  forall args region t message,
    outcome args region t = Thrown message ->
    traceAfter args region t = t
    /\ (message = BoundsError \/ message = HeterogeneousListError)
    /\ (forall body, outcome args region t <> Returned body)
    /\ (forall args' t' body,
           outcome args' region t' = Returned body ->
           exists column,
             traceAfter args' region t'
             <> t'
             /\ In (AddWidgetJson column [] 0 0 region)
                   (traceAfter args' region t')
             /\ body_widgets body = addWidgetJson column [] 0 0 region).
Proof.
  intros args region t message. unfold outcome, traceAfter.
  rewrite getDashboardBody_cases. intros H.
  split; [|split; [|split]].
  - destruct (100 <? _); [reflexivity|].
    destruct (homogeneousb _); [discriminate H | reflexivity].
  - destruct (100 <? _); [left; simpl in H; congruence|].
    destruct (homogeneousb _); [discriminate H | right; simpl in H; congruence].
  - intros body Hb.
    destruct (100 <? _); [discriminate Hb|].
    destruct (homogeneousb _); [discriminate H | discriminate Hb].
  - clear. intros args t body. rewrite getDashboardBody_cases.
    destruct (100 <? _); [discriminate|].
    destruct (homogeneousb _); [|discriminate].
    simpl. intros H. inversion H; subst; clear H.
    exists (ColumnWidget (rowsOf (widgetsOrEmpty args))). split; [|split].
    + intros E. apply (f_equal (@List.length Event)) in E.
      unfold layoutCalls in E. rewrite !length_app in E.
      simpl in E. lia.
    + apply in_or_app. right. unfold layoutCalls.
      apply in_or_app. right. simpl. auto.
    + reflexivity.
Qed.

(** C8, at a list of 101 widgets and at a mixed list; a list of two leaves
    builds and its trace is not empty. *)
Lemma errors_before_layout_witness :
  traceAfter (argsOf (repeat (leaf 6 6 "metric") 101)) usEast1 [] = []
  /\ traceAfter (argsOf [RowWidget []; leaf 6 6 "metric"]) usEast1 [] = []
  /\ traceAfter (argsOf [leaf 6 6 "a"; leaf 6 6 "b"]) usEast1 [] <> [].
Proof.
  split; [|split].
  - apply (errors_before_layout (argsOf (repeat (leaf 6 6 "metric") 101))
                                usEast1 [] BoundsError).
    reflexivity.
  - apply (errors_before_layout (argsOf [RowWidget []; leaf 6 6 "metric"])
                                usEast1 [] HeterogeneousListError).
    reflexivity.
  - destruct (errors_before_layout (argsOf [RowWidget []; leaf 6 6 "metric"])
                usEast1 [] HeterogeneousListError eq_refl)
      as (_ & _ & _ & Hbuilt).
    destruct (Hbuilt (argsOf [leaf 6 6 "a"; leaf 6 6 "b"]) []
                     (bodyOf (argsOf [leaf 6 6 "a"; leaf 6 6 "b"]) usEast1)
                     eq_refl) as (column & Hrun & _).
    exact Hrun.
Defined.

(** ** Determinism *)

Lemma readArray_new (h : Store) a : readArray (h ++ [a]) (List.length h) = a.
Proof. unfold readArray. now rewrite nth_middle. Qed.

Lemma writeArray_new (h : Store) a b :
  writeArray (h ++ [b]) (List.length h) a = h ++ [a].
Proof. induction h as [|c h IH]; simpl; [reflexivity | now rewrite IH]. Qed.

Lemma readArray_old (h more : Store) r :
  (r < List.length h)%nat -> readArray (h ++ more) r = readArray h r.
Proof. intros H. unfold readArray. now rewrite app_nth1. Qed.

(** The three ways a build on a store can end: a build that returns has
    allocated one array, after all the arrays there were, and left the
    layout of the root column in it. *)
Lemma getDashboardBodyIn_cases args region w :
  getDashboardBodyIn args region w
  = if 100 <? Z.of_nat (List.length (widgetsOrEmpty args))
    then (Thrown BoundsError, w)
    else if homogeneousb (widgetsOrEmpty args)
         then (Returned (mkDashboardBodyRef (args_start args) (args_end args)
                           (args_periodOverride args)
                           (List.length (arrays w))),
               mkWorld (arrays w
                        ++ [addWidgetJson
                              (ColumnWidget (rowsOf (widgetsOrEmpty args)))
                              [] 0 0 region])
                       (calls w ++ layoutCalls (widgetsOrEmpty args) region))
         else (Thrown HeterogeneousListError, w).
Proof.
  unfold getDashboardBodyIn, layoutCalls, homogeneousb.
  rewrite length_not_negative, rowsOf_firstIsRow.
  destruct (100 <? _); cbn [orb]; [reflexivity|].
  unfold bindW at 1. unfold liftM at 1. rewrite checkWidgets_run.
  fold (firstIsRow (widgetsOrEmpty args)).
  destruct w as [h t].
  destruct (forallb _ _); [|reflexivity].
  destruct (firstIsRow (widgetsOrEmpty args));
    cbv [bindW retW liftM newRowWidget newColumnWidget bind ret call newArray
         addWidgetJsonAt arrays calls];
    rewrite readArray_new, writeArray_new, <- ?app_assoc; reflexivity.
Qed.

(** C9. Two builds with the same arguments and region produce the same
    document, whatever arrays the store holds and whatever was called
    before: the document is the one the builder computes from its arguments
    alone, and so is its serialization by any function of the document.  A
    second build after the first produces the same document again, leaves
    the first build's document as it was, and no build changes an array that
    existed before it. *)
Theorem builder_deterministic :
  forall args region (stringify : DashboardBody -> string) w1 w2,
    let first := getDashboardBodyIn args region w1 in
    let second := getDashboardBodyIn args region (snd first) in
    document first = document (getDashboardBodyIn args region w2)
    /\ mapOutcome stringify (document first)
       = mapOutcome stringify (document (getDashboardBodyIn args region w2))
    /\ document first = outcome args region (calls w1)
    /\ document second = document first
    /\ documentIn (arrays (snd second)) (fst first) = document first
    /\ firstn (List.length (arrays w1)) (arrays (snd first)) = arrays w1.
Proof.
  intros args region stringify w1 w2 first second.
  assert (Hdoc : forall w,
             document (getDashboardBodyIn args region w)
             = outcome args region (calls w)).
  { intros w. unfold document, outcome.
    rewrite getDashboardBodyIn_cases, getDashboardBody_cases.
    destruct (100 <? _); [reflexivity|].
    destruct (homogeneousb _); [|reflexivity].
    simpl. unfold resolve, bodyOf. simpl. now rewrite readArray_new. }
  assert (Hout : forall t t', outcome args region t = outcome args region t').
  { intros t t'. unfold outcome. rewrite !getDashboardBody_cases.
    destruct (100 <? _); [reflexivity|].
    destruct (homogeneousb _); reflexivity. }
  split; [|split; [|split; [|split; [|split]]]].
  - unfold first. rewrite !Hdoc. apply Hout.
  - unfold first. rewrite !Hdoc. f_equal. apply Hout.
  - apply Hdoc.
  - unfold second, first. rewrite !Hdoc. apply Hout.
  - unfold second, first, document.
    rewrite !getDashboardBodyIn_cases.
    destruct (100 <? _); [reflexivity|].
    destruct (homogeneousb _); [|reflexivity].
    simpl. unfold resolve. simpl. f_equal. f_equal.
    rewrite readArray_old by (rewrite length_app; simpl; lia).
    reflexivity.
  - unfold first. rewrite getDashboardBodyIn_cases.
    destruct (100 <? _); [apply firstn_all|].
    destruct (homogeneousb _); [|apply firstn_all].
    simpl. rewrite firstn_app, firstn_all, Nat.sub_diag. simpl.
    apply app_nil_r.
Qed.

(** ** Omitted widgets *)

(** C10. When [widgets] is omitted the builder behaves as for an empty list:
    it throws nothing, the body's [widgets] array is empty, and [start],
    [end] and [periodOverride] are passed through. *)
Theorem omitted_widgets :
  forall name rgn e s p region t,
    getDashboardBody (mkDashboardArgs name rgn e s p None) region t
    = getDashboardBody (mkDashboardArgs name rgn e s p (Some [])) region t
    /\ outcome (mkDashboardArgs name rgn e s p None) region t
       = Returned (mkDashboardBody s e p []).
Proof. intros. split; reflexivity. Qed.

(** * Further properties of the body builder *)

Lemma errorOf_getDashboardBody args region t :
  errorOf (outcome args region t)
  = if 100 <? Z.of_nat (List.length (widgetsOrEmpty args))
    then Some BoundsError
    else if homogeneousb (widgetsOrEmpty args) then None
         else Some HeterogeneousListError.
Proof.
  unfold outcome. rewrite getDashboardBody_cases.
  destruct (100 <? _); [reflexivity|].
  destruct (homogeneousb _); reflexivity.
Qed.

(** A list passes the classification loop unless it holds both a row and a
    widget that is not a row. *)
Lemma homogeneousb_mixed ws :
  homogeneousb ws
  = negb (existsb isRow ws && existsb (fun w => negb (isRow w)) ws).
Proof.
  destruct (homogeneousb ws) eqn:H; symmetry.
  - apply negb_true_iff, andb_false_iff.
    destruct (existsb isRow ws) eqn:Er; [right | now left].
    destruct (existsb (fun w => negb (isRow w)) ws) eqn:El; [|reflexivity].
    apply existsb_exists in Er. destruct Er as (r & Hr & Er).
    apply existsb_exists in El. destruct El as (l & Hl & El).
    apply negb_true_iff in El.
    assert (Hno : ~ exists w, In w ws /\ isRow w <> firstIsRow ws).
    { intros C. apply homogeneousb_false in C. congruence. }
    exfalso. apply Hno.
    destruct (firstIsRow ws) eqn:F.
    + exists l. split; [exact Hl | congruence].
    + exists r. split; [exact Hr | congruence].
  - apply negb_false_iff, andb_true_iff.
    apply homogeneousb_false in H. destruct H as (w & Hw & Hd).
    assert (Hf : exists f, In f ws /\ isRow f = firstIsRow ws).
    { destruct ws as [|f rest]; [contradiction|]. exists f. simpl. auto. }
    destruct Hf as (f & Hf & Ef).
    split; apply existsb_exists.
    + destruct (isRow w) eqn:E; [now exists w|].
      exists f. split; [exact Hf|]. rewrite Ef.
      destruct (firstIsRow ws); [reflexivity | now contradiction Hd].
    + destruct (isRow w) eqn:E; [|exists w; now rewrite E].
      exists f. split; [exact Hf|]. rewrite Ef.
      destruct (firstIsRow ws); [now contradiction Hd | reflexivity].
Qed.

Lemma existsb_permutation (f : Widget -> bool) ws ws' :
  Permutation ws ws' -> existsb f ws = existsb f ws'.
Proof.
  intros HP.
  destruct (existsb f ws) eqn:E; symmetry.
  - apply existsb_exists in E. destruct E as (w & Hw & Ew).
    apply existsb_exists. exists w. split; [|exact Ew].
    now apply (Permutation_in _ HP).
  - destruct (existsb f ws') eqn:E'; [|reflexivity].
    apply existsb_exists in E'. destruct E' as (w & Hw & Ew).
    rewrite <- E. symmetry. apply existsb_exists. exists w.
    split; [|exact Ew].
    now apply (Permutation_in _ (Permutation_sym HP)).
Qed.

Lemma existsb_map_isRow (g : bool -> bool) ws :
  existsb (fun w => g (isRow w)) ws = existsb g (map isRow ws).
Proof. induction ws as [|w ws IH]; simpl; [reflexivity | now rewrite IH]. Qed.

(** X1. Within the count bound the builder throws the heterogeneous-list
    error exactly when the list holds both a row and a widget that is not a
    row, wherever they stand. *)
Theorem heterogeneous_iff_mixed :
  forall args region t,
    (List.length (widgetsOrEmpty args) <= 100)%nat ->
    (outcome args region t = Thrown HeterogeneousListError
     <-> (exists r, In r (widgetsOrEmpty args) /\ isRow r = true)
         /\ (exists l, In l (widgetsOrEmpty args) /\ isRow l = false)).
Proof.
  intros args region t Hlen.
  assert (Herr : outcome args region t = Thrown HeterogeneousListError
                 <-> errorOf (outcome args region t)
                     = Some HeterogeneousListError).
  { destruct (outcome args region t); simpl; split; congruence. }
  rewrite Herr, errorOf_getDashboardBody, homogeneousb_mixed.
  destruct (Z.ltb_spec 100 (Z.of_nat (List.length (widgetsOrEmpty args))))
    as [Hn | _]; [lia|].
  split.
  - intros H.
    destruct (existsb isRow _) eqn:Er; [|discriminate H].
    destruct (existsb (fun w => negb (isRow w)) _) eqn:El; [|discriminate H].
    apply existsb_exists in Er. apply existsb_exists in El.
    destruct Er as (r & Hr & Er). destruct El as (l & Hl & El).
    apply negb_true_iff in El. split; eauto.
  - intros ((r & Hr & Er) & (l & Hl & El)).
    assert (E1 : existsb isRow (widgetsOrEmpty args) = true)
      by (apply existsb_exists; eauto).
    assert (E2 : existsb (fun w => negb (isRow w)) (widgetsOrEmpty args) = true)
      by (apply existsb_exists; exists l; now rewrite El).
    now rewrite E1, E2.
Qed.

(** X1, at a list whose row comes last. *)
Lemma heterogeneous_iff_mixed_witness :
  outcome (argsOf [leaf 6 6 "a"; leaf 6 6 "b"; RowWidget []]) usEast1 []
  = Thrown HeterogeneousListError.
Proof.
  apply (heterogeneous_iff_mixed
           (argsOf [leaf 6 6 "a"; leaf 6 6 "b"; RowWidget []]) usEast1 []).
  - simpl. lia.
  - split.
    + exists (RowWidget []). split; [simpl; auto | reflexivity].
    + exists (leaf 6 6 "a"). split; [simpl; auto | reflexivity].
Defined.

(** X2. Whether the builder throws, and which error, does not depend on the
    order of the widgets. *)
Theorem validation_ignores_order :
  forall args args' region region' t t',
    Permutation (widgetsOrEmpty args) (widgetsOrEmpty args') ->
    errorOf (outcome args region t) = errorOf (outcome args' region' t').
Proof.
  intros args args' region region' t t' HP.
  rewrite !errorOf_getDashboardBody, !homogeneousb_mixed.
  rewrite (Permutation_length HP).
  now rewrite (existsb_permutation isRow _ _ HP),
              (existsb_permutation (fun w => negb (isRow w)) _ _ HP).
Qed.

(** X2, at a mixed list and its reversal. *)
Lemma validation_ignores_order_witness :
  errorOf (outcome (argsOf [RowWidget []; leaf 6 6 "a"]) usEast1 [])
  = errorOf (outcome (argsOf [leaf 6 6 "a"; RowWidget []]) usEast1 []).
Proof.
  apply (validation_ignores_order
           (argsOf [RowWidget []; leaf 6 6 "a"])
           (argsOf [leaf 6 6 "a"; RowWidget []])).
  apply perm_swap.
Defined.

(** X3. Validation is shallow: whether the builder rejects a list (throws
    before it has made any call into the widget classes), and with which
    message, depends only on how many top-level widgets there are and on
    which of them are rows, never on what a widget holds. *)
Theorem validation_is_shallow :
  forall args args' region region' t t' message,
    map isRow (widgetsOrEmpty args) = map isRow (widgetsOrEmpty args') ->
    (getDashboardBody args region t = (Thrown message, t)
     <-> getDashboardBody args' region' t' = (Thrown message, t')).
Proof.
  intros args args' region region' t t' message Hmap.
  rewrite !getDashboardBody_cases, !homogeneousb_mixed.
  rewrite <- (length_map isRow (widgetsOrEmpty args)), Hmap, length_map.
  rewrite (existsb_map_isRow (fun b => b)), (existsb_map_isRow negb), Hmap.
  rewrite <- (existsb_map_isRow (fun b => b)), <- (existsb_map_isRow negb).
  destruct (100 <? _).
  - split; intros H; inversion H; reflexivity.
  - destruct (negb _).
    + split; intros H; discriminate H.
    + split; intros H; inversion H; reflexivity.
Qed.

(** X3, at two mixed lists whose widgets hold different children: the second
    is rejected because the first is. *)
Lemma validation_is_shallow_witness :
  getDashboardBody
    (argsOf [RowWidget [leaf 6 6 "a"; leaf 6 6 "b"]; ColumnWidget []])
    usEast1 []
  = (Thrown HeterogeneousListError, []).
Proof.
  apply (validation_is_shallow
           (argsOf [RowWidget []; leaf 6 6 "a"])
           (argsOf [RowWidget [leaf 6 6 "a"; leaf 6 6 "b"]; ColumnWidget []])
           usEast1 usEast1 [] [] HeterogeneousListError).
  - reflexivity.
  - reflexivity.
Defined.

Lemma rowsOf_normal ws :
  rowsOf (rowsOf ws) = rowsOf ws
  /\ (List.length (rowsOf ws) <= Nat.max 1 (List.length ws))%nat
  /\ firstIsRow (rowsOf ws) = true.
Proof. destruct ws as [|[| |] rest]; simpl; repeat split; lia. Qed.

Lemma all_rows_of_first ws :
  Forall (fun w => isRow w = true) ws \/ Forall (fun w => isRow w = false) ws ->
  Forall (fun w => isRow w = true) (rowsOf ws).
Proof.
  intros H. destruct ws as [|[wd ht ty props | cs | cs] rest]; simpl.
  - repeat constructor.
  - repeat constructor.
  - destruct H as [H | H]; [exact H|].
    inversion H as [|? ? Hf _]. discriminate Hf.
  - repeat constructor.
Qed.

(** X4. Handing the builder the rows it would have made itself changes
    nothing: for a list it accepts, the list and its normal form (the list
    itself when it is all rows, one row holding the whole list otherwise)
    give the same outcome. *)
Theorem prewrapped_rows_same_outcome :
  forall args region t,
    (List.length (widgetsOrEmpty args) <= 100)%nat ->
    (Forall (fun w => isRow w = true) (widgetsOrEmpty args)
     \/ Forall (fun w => isRow w = false) (widgetsOrEmpty args)) ->
    outcome (withWidgets args (Some (rowsOf (widgetsOrEmpty args)))) region t
    = outcome args region t.
Proof.
  intros args region t Hlen Hhom. unfold outcome.
  rewrite !getDashboardBody_cases.
  change (widgetsOrEmpty (withWidgets args (Some (rowsOf (widgetsOrEmpty args)))))
    with (rowsOf (widgetsOrEmpty args)).
  destruct (rowsOf_normal (widgetsOrEmpty args)) as (Hn & Hl & _).
  destruct (Z.ltb_spec 100 (Z.of_nat (List.length (widgetsOrEmpty args))))
    as [H | _]; [lia|].
  destruct (Z.ltb_spec 100 (Z.of_nat (List.length (rowsOf (widgetsOrEmpty args)))))
    as [H | _]; [lia|].
  rewrite (homogeneousb_true _ Hhom).
  rewrite (homogeneousb_true (rowsOf (widgetsOrEmpty args)))
    by (left; now apply all_rows_of_first).
  unfold bodyOf. simpl.
  change (widgetsOrEmpty (withWidgets args (Some (rowsOf (widgetsOrEmpty args)))))
    with (rowsOf (widgetsOrEmpty args)).
  now rewrite Hn.
Qed.

(** X4, at two leaves and the row that holds them. *)
Lemma prewrapped_rows_same_outcome_witness :
  outcome (argsOf [RowWidget [leaf 6 6 "a"; leaf 6 6 "b"]]) usEast1 []
  = outcome (argsOf [leaf 6 6 "a"; leaf 6 6 "b"]) usEast1 [].
Proof.
  apply (prewrapped_rows_same_outcome
           (argsOf [leaf 6 6 "a"; leaf 6 6 "b"]) usEast1 []).
  - simpl. lia.
  - right. repeat constructor.
Defined.

(** X5. The count bound is on the top-level list only: a list of more than
    100 widgets throws the bounds error, yet the same widgets held by one
    row build. *)
Theorem bound_counts_top_level_only :
  forall args cs region t,
    (100 < List.length cs)%nat ->
    outcome (withWidgets args (Some cs)) region t = Thrown BoundsError
    /\ outcome (withWidgets args (Some [RowWidget cs])) region t
       = Returned (mkDashboardBody (args_start args) (args_end args)
                     (args_periodOverride args)
                     (addWidgetJson (ColumnWidget [RowWidget cs]) [] 0 0
                                    region)).
Proof.
  intros args cs region t Hlen. split; [|reflexivity].
  unfold outcome. rewrite getDashboardBody_cases.
  change (widgetsOrEmpty (withWidgets args (Some cs))) with cs.
  destruct (Z.ltb_spec 100 (Z.of_nat (List.length cs))); [reflexivity | lia].
Qed.

(** X5, at 101 leaves. *)
Lemma bound_counts_top_level_only_witness :
  outcome (argsOf (repeat (leaf 6 6 "metric") 101)) usEast1 []
  = Thrown BoundsError
  /\ errorOf (outcome (argsOf [RowWidget (repeat (leaf 6 6 "metric") 101)])
                      usEast1 [])
     = None.
Proof.
  destruct (bound_counts_top_level_only
              (argsOf []) (repeat (leaf 6 6 "metric") 101) usEast1 [])
    as [Hthrown Hbuilt].
  - rewrite repeat_length. lia.
  - split; [exact Hthrown|].
    change (argsOf [RowWidget (repeat (leaf 6 6 "metric") 101)])
      with (withWidgets (argsOf [])
                        (Some [RowWidget (repeat (leaf 6 6 "metric") 101)])).
    now rewrite Hbuilt.
Defined.

(** X6. The scalar fields take no part in validation or layout: two calls
    with the same widgets and region throw the same error or make the same
    calls and return the same [widgets]; [start], [end] and [periodOverride]
    of a returned body are those of the arguments.  [args.name] and
    [args.region] are never read. *)
Theorem scalars_pass_through :
  forall args args' region t,
    widgetsOrEmpty args = widgetsOrEmpty args' ->
    errorOf (outcome args region t) = errorOf (outcome args' region t)
    /\ traceAfter args region t = traceAfter args' region t
    /\ (forall body,
           outcome args region t = Returned body ->
           body_start body = args_start args
           /\ body_end body = args_end args
           /\ body_periodOverride body = args_periodOverride args
           /\ outcome args' region t
              = Returned (mkDashboardBody (args_start args') (args_end args')
                            (args_periodOverride args') (body_widgets body))).
Proof.
  intros args args' region t Hws. unfold outcome, traceAfter.
  rewrite !getDashboardBody_cases, <- Hws.
  destruct (100 <? _); [repeat split; intros; discriminate|].
  destruct (homogeneousb _); [|repeat split; intros; discriminate].
  simpl. repeat split; inversion H; subst; try reflexivity.
  unfold bodyOf. simpl. now rewrite Hws.
Qed.

(** X6, at two calls that differ in every scalar field. *)
Lemma scalars_pass_through_witness :
  errorOf (outcome (mkDashboardArgs (Some "a"%string) (Some usEast1) None
                      (Some "-PT8H"%string) (Some auto_)
                      (Some [leaf 6 6 "m"]))
                   usEast1 [])
  = errorOf (outcome (argsOf [leaf 6 6 "m"]) usEast1 []).
Proof.
  apply (scalars_pass_through
           (mkDashboardArgs (Some "a"%string) (Some usEast1) None
              (Some "-PT8H"%string) (Some auto_) (Some [leaf 6 6 "m"]))
           (argsOf [leaf 6 6 "m"]) usEast1 []).
  reflexivity.
Defined.

(** X7. A body the builder returns holds one record for every leaf of the
    widget list, in the order of the list, each with its leaf's size, type
    and properties. *)
Theorem body_lists_the_leaves :
  forall args region t body,
    outcome args region t = Returned body ->
    map recordContent (body_widgets body)
    = map (leafContent region) (flat_map leaves (widgetsOrEmpty args))
    /\ List.length (body_widgets body)
       = List.length (flat_map leaves (widgetsOrEmpty args)).
Proof.
  intros args region t body. unfold outcome.
  rewrite getDashboardBody_cases.
  destruct (100 <? _); [discriminate|].
  destruct (homogeneousb _); [|discriminate].
  simpl. intros H. inversion H; subst; clear H. unfold bodyOf. simpl body_widgets.
  assert (Hc : map recordContent
                 (addWidgetJson (ColumnWidget (rowsOf (widgetsOrEmpty args)))
                                [] 0 0 region)
               = map (leafContent region)
                     (flat_map leaves (widgetsOrEmpty args))).
  { etransitivity;
      [exact (widget_keeps_leaves region
                (ColumnWidget (rowsOf (widgetsOrEmpty args))) 0 0)|].
    f_equal. destruct (widgetsOrEmpty args) as [|[| |] rest];
      simpl; now rewrite ?app_nil_r. }
  split; [exact Hc|].
  apply (f_equal (@List.length _)) in Hc. rewrite !length_map in Hc.
  exact Hc.
Qed.

(** X7, at a row of 101 leaves: the body holds 101 records. *)
Lemma body_lists_the_leaves_witness :
  List.length
    (body_widgets
       (bodyOf (argsOf [RowWidget (repeat (leaf 6 6 "metric") 101)]) usEast1))
  = 101%nat.
Proof.
  destruct (body_lists_the_leaves
              (argsOf [RowWidget (repeat (leaf 6 6 "metric") 101)]) usEast1 []
              (bodyOf (argsOf [RowWidget (repeat (leaf 6 6 "metric") 101)])
                      usEast1)
              eq_refl) as [_ Hlen].
  rewrite Hlen. reflexivity.
Defined.

Lemma existsb_incl (f : Widget -> bool) ws ws' :
  incl ws ws' -> existsb f ws = true -> existsb f ws' = true.
Proof.
  intros Hincl H. apply existsb_exists in H. destruct H as (w & Hw & Ew).
  apply existsb_exists. exists w. split; [now apply Hincl | exact Ew].
Qed.

(** X8. Adding widgets never repairs a rejected list: when the builder
    throws for a list, it throws for every list that is at least as long and
    holds all its widgets; equally, a list taken out of an accepted one is
    accepted. *)
Theorem rejection_is_monotone :
  forall args args' region region' t t',
    incl (widgetsOrEmpty args) (widgetsOrEmpty args') ->
    (List.length (widgetsOrEmpty args)
     <= List.length (widgetsOrEmpty args'))%nat ->
    errorOf (outcome args region t) <> None ->
    errorOf (outcome args' region' t') <> None.
Proof.
  intros args args' region region' t t' Hincl Hlen.
  rewrite !errorOf_getDashboardBody, !homogeneousb_mixed.
  destruct (Z.ltb_spec 100 (Z.of_nat (List.length (widgetsOrEmpty args'))))
    as [_ | Hn']; [discriminate|].
  destruct (Z.ltb_spec 100 (Z.of_nat (List.length (widgetsOrEmpty args))))
    as [Hn | _]; [lia|].
  destruct (existsb isRow (widgetsOrEmpty args)) eqn:Er;
    [|intros H; now contradiction H].
  destruct (existsb (fun w => negb (isRow w)) (widgetsOrEmpty args)) eqn:El;
    [|intros H; now contradiction H].
  rewrite (existsb_incl _ _ _ Hincl Er), (existsb_incl _ _ _ Hincl El).
  discriminate.
Qed.

(** X8, at a mixed list with one more leaf put in front. *)
Lemma rejection_is_monotone_witness :
  errorOf (outcome (argsOf [leaf 6 6 "c"; RowWidget []; leaf 6 6 "a"])
                   usEast1 [])
  <> None.
Proof.
  apply (rejection_is_monotone
           (argsOf [RowWidget []; leaf 6 6 "a"])
           (argsOf [leaf 6 6 "c"; RowWidget []; leaf 6 6 "a"])
           usEast1 usEast1 [] []).
  - intros w Hw. right. exact Hw.
  - simpl. lia.
  - discriminate.
Defined.

(** * Properties of the CodeBuild metrics *)

Section MetricProperties.
Variable Metric : Type.
Variable newMetric : metrics.Object -> Metric.
Variable withDimensions : Metric -> metrics.Object -> Metric.

Lemma metric_handsOver name statistic unit :
  metrics.handsOver Metric newMetric withDimensions name statistic unit
    (fun change =>
       metrics.metric Metric newMetric withDimensions name
         (Some (metrics.withDefaults statistic unit change))).
Proof.
  intros change. eexists. eexists. split; [reflexivity|]. split; intros k.
  - unfold metrics.expectedArgument, metrics.withDefaults, metrics.spread,
      metrics.set, metrics.emptyObject.
    destruct change as [c|].
    + destruct (c k); [reflexivity|].
      rewrite !(String.eqb_sym k).
      destruct (String.eqb_spec "unit" k) as [<- | _]; [reflexivity|].
      destruct (String.eqb_spec "statistic" k) as [<- | _]; [reflexivity|].
      destruct (String.eqb_spec "name" k) as [<- | _]; [reflexivity|].
      reflexivity.
    + rewrite !(String.eqb_sym k).
      destruct (String.eqb_spec "unit" k) as [<- | _]; [reflexivity|].
      destruct (String.eqb_spec "statistic" k) as [<- | _]; [reflexivity|].
      destruct (String.eqb_spec "name" k) as [<- | _]; [reflexivity|].
      reflexivity.
  - unfold metrics.expectedDimension.
    assert (Hp : metrics.get (metrics.withDefaults statistic unit change)
                             "project"
                 = metrics.get (metrics.spread metrics.emptyObject change)
                               "project").
    { unfold metrics.get, metrics.withDefaults, metrics.spread.
      destruct change as [c|]; [|reflexivity].
      destruct (c "project"%string); reflexivity. }
    rewrite <- Hp.
    destruct (metrics.isDefined _); simpl; [|reflexivity].
    unfold metrics.set, metrics.emptyObject.
    now rewrite (String.eqb_sym k).
Qed.

Lemma exported_handsOver :
  Forall (fun e => metrics.handsOver Metric newMetric withDimensions
                     (fst (fst (fst e))) (snd (fst (fst e)))
                     (snd (fst e)) (snd e))
         (metrics.exported Metric newMetric withDimensions).
Proof. repeat constructor; apply metric_handsOver. Qed.

(** X9. Every exported metric function builds its [Metric] from arguments
    in which a property of the caller's [change] always wins, also one the
    caller set to [undefined]; where [change] has no such property,
    [statistic] and [unit] are the function's defaults, [namespace] is
    AWS/CodeBuild and [name] is the function's metric name; nothing else is
    added. *)
Theorem codebuild_arguments :
  Forall (fun e =>
            let name := fst (fst (fst e)) in
            let statistic := snd (fst (fst e)) in
            let unit := snd (fst e) in
            forall change,
            exists args dimensions,
              snd e change = withDimensions (newMetric args) dimensions
              /\ forall k,
                   args k
                   = match metrics.spread metrics.emptyObject change k with
                     | Some v => Some v
                     | None =>
                         if String.eqb k "statistic"
                         then Some (metrics.Str statistic)
                         else if String.eqb k "unit"
                         then Some (metrics.Str unit)
                         else if String.eqb k "namespace"
                         then Some (metrics.Str "AWS/CodeBuild")
                         else if String.eqb k "name"
                         then Some (metrics.Str name)
                         else None
                     end)
         (metrics.exported Metric newMetric withDimensions).
Proof.
  eapply Forall_impl; [|exact exported_handsOver].
  intros e H. cbv zeta. intros change.
  destruct (H change) as (args & dims & Hf & Ha & _).
  exists args, dims. split; [exact Hf | exact Ha].
Qed.

(** X10. Every exported metric function passes to [withDimensions] the one
    dimension [ProjectName], holding the name of [change.project], when the
    caller's [change] has a [project] that is not [undefined], and no
    dimension at all otherwise. *)
Theorem codebuild_project_dimension :
  Forall (fun e =>
            forall change,
            exists args dimensions,
              snd e change = withDimensions (newMetric args) dimensions
              /\ forall k,
                   dimensions k
                   = let project :=
                       metrics.get (metrics.spread metrics.emptyObject change)
                                   "project" in
                     if metrics.isDefined project && String.eqb k "ProjectName"
                     then Some (metrics.member project "name")
                     else None)
         (metrics.exported Metric newMetric withDimensions).
Proof.
  eapply Forall_impl; [|exact exported_handsOver].
  intros e H change. destruct (H change) as (args & dims & Hf & _ & Hd).
  exists args, dims. split; [exact Hf | exact Hd].
Qed.

End MetricProperties.
